(** * The ParaMonte visualization facade ([paramonte/_visualization.py])

    The module body is nine [from M import N] statements.  We embed the
    statement syntax, Python's import machinery for these statements
    ([sys.modules] cache, finder and loader, attribute lookup, binding in the
    module's namespace dict) and the facade body itself, then prove the
    properties of its namespace, its failures and its effects.

    The collaborator modules ([_visutils], [_HistPlot], ...) are not part of
    the embedded source: a collaborator is an abstract [loader] that either
    is not found, fails while executing its own body (with any effect on the
    rest of the world), or executes and yields its attribute dict. *)

From Stdlib Require Import String Ascii List Bool Lia.
Import ListNotations.
Open Scope string_scope.
Open Scope list_scope.

(** ** Namespaces: Python dicts with insertion order *)

Definition dict (A : Type) := list (string * A).

Fixpoint dict_get {A} (k : string) (d : dict A) : option A :=
  match d with
  | [] => None
  | (k', v) :: d' => if String.eqb k k' then Some v else dict_get k d'
  end.

(** [d[k] = v]: an existing key keeps its position, a new key goes last. *)
Fixpoint dict_set {A} (k : string) (v : A) (d : dict A) : dict A :=
  match d with
  | [] => [(k, v)]
  | (k', v') :: d' =>
      if String.eqb k k' then (k', v) :: d' else (k', v') :: dict_set k v d'
  end.

Definition keys {A} (d : dict A) : list string := map fst d.

(** A public name does not start with an underscore: with no [__all__], these
    are the names [from _visualization import *] hands to a consumer. *)
Definition is_public (k : string) : bool :=
  match k with
  | String c _ => negb (Ascii.eqb c "_"%char)
  | EmptyString => true
  end.

Definition public_names {A} (d : dict A) : list string := filter is_public (keys d).

(** ** Statements and the facade body *)

Inductive stmt : Type :=
| ImportFrom (module : string) (names : list string)  (* from module import n1, ... *)
| ImportStar (module : string).                       (* from module import * *)

Definition stmt_module (st : stmt) : string :=
  match st with ImportFrom m _ => m | ImportStar m => m end.

Definition stmt_names (st : stmt) : list string :=
  match st with ImportFrom _ ns => ns | ImportStar _ => [] end.

Definition is_star (st : stmt) : bool :=
  match st with ImportStar _ => true | ImportFrom _ _ => false end.

(** Lines 25-33 of [_visualization.py]. *)
Definition body : list stmt :=
  [ ImportFrom "_visutils" ["ParaMonteFigure"]
  ; ImportFrom "_visutils" ["Target"]
  ; ImportFrom "_HistPlot" ["HistPlot"]
  ; ImportFrom "_GridPlot" ["GridPlot"]
  ; ImportFrom "_LinePlot" ["LinePlot"]
  ; ImportFrom "_ScatterPlot" ["ScatterPlot"]
  ; ImportFrom "_HeatMapPlot" ["HeatMapPlot"]
  ; ImportFrom "_DensityMapPlot" ["DensityMapPlot"]
  ; ImportFrom "_ScatterLinePlot" ["ScatterLinePlot"] ].

Definition facade_name : string := "_visualization".

(** The body as (module, name) pairs, one per statement. *)
Definition single (p : string * string) : stmt := ImportFrom (fst p) [snd p].

Definition imports : list (string * string) :=
  [ ("_visutils", "ParaMonteFigure"); ("_visutils", "Target")
  ; ("_HistPlot", "HistPlot"); ("_GridPlot", "GridPlot")
  ; ("_LinePlot", "LinePlot"); ("_ScatterPlot", "ScatterPlot")
  ; ("_HeatMapPlot", "HeatMapPlot"); ("_DensityMapPlot", "DensityMapPlot")
  ; ("_ScatterLinePlot", "ScatterLinePlot") ].

Definition collaborators : list string := nodup String.string_dec (map fst imports).

Definition plot_constructors : list string :=
  ["HistPlot"; "GridPlot"; "LinePlot"; "ScatterPlot"; "HeatMapPlot";
   "DensityMapPlot"; "ScatterLinePlot"].

(** ** Exceptions and collaborator loaders *)

Inductive exn (E : Type) : Type :=
| ModuleNotFoundError (module : string)
| ImportError (name module : string)
| Raised (e : E).
Arguments ModuleNotFoundError {E} module.
Arguments ImportError {E} name module.
Arguments Raised {E} e.

(** What finding and executing a collaborator module yields. *)
Inductive load_result (O W E : Type) : Type :=
| NotFound
| ExecFailed (e : exn E) (w : W)
| Executed (attrs : dict O) (w : W).
Arguments NotFound {O W E}.
Arguments ExecFailed {O W E} e w.
Arguments Executed {O W E} attrs w.

Section ImportSystem.

(** [obj]: Python objects, compared by identity; [W]: the state outside the
    import system (files, output, other modules' globals); [E]: exceptions a
    collaborator's own body may raise. *)
Variables (obj W E : Type).
Variable loader : string -> W -> load_result obj W E.

Record state : Type := mkState {
  ns : dict obj;                 (* globals of the module being executed *)
  sysmods : dict (dict obj);     (* sys.modules *)
  world : W;
  attempts : list string         (* modules the import statements asked for *)
}.

Definition set_ns (d : dict obj) (s : state) : state :=
  mkState d (sysmods s) (world s) (attempts s).

(** [importlib.import_module m]: a cached module is returned as is; otherwise
    the module is found and executed.  CPython puts the module in
    [sys.modules] before executing it and removes it again when execution
    raises; the net effect is the one written here. *)
Definition import_module (m : string) (s : state) : (exn E + dict obj) * state :=
  let s := mkState (ns s) (sysmods s) (world s) (attempts s ++ [m]) in
  match dict_get m (sysmods s) with
  | Some md => (inr md, s)
  | None =>
      match loader m (world s) with
      | NotFound => (inl (ModuleNotFoundError m), s)
      | ExecFailed e w => (inl e, mkState (ns s) (sysmods s) w (attempts s))
      | Executed md w => (inr md, mkState (ns s) (dict_set m md (sysmods s)) w (attempts s))
      end
  end.

(** The names of [from m import n1, n2, ...], bound left to right. *)
Fixpoint import_names (m : string) (md : dict obj) (names : list string) (s : state)
  : option (exn E) * state :=
  match names with
  | [] => (None, s)
  | n :: rest =>
      match dict_get n md with
      | Some v => import_names m md rest (set_ns (dict_set n v (ns s)) s)
      | None => (Some (ImportError n m), s)
      end
  end.

Definition import_star (md : dict obj) (s : state) : state :=
  set_ns (fold_left (fun d kv => if is_public (fst kv) then dict_set (fst kv) (snd kv) d else d)
            md (ns s)) s.

Definition exec_stmt (st : stmt) (s : state) : option (exn E) * state :=
  match st with
  | ImportFrom m names =>
      match import_module m s with
      | (inl e, s1) => (Some e, s1)
      | (inr md, s1) => import_names m md names s1
      end
  | ImportStar m =>
      match import_module m s with
      | (inl e, s1) => (Some e, s1)
      | (inr md, s1) => (None, import_star md s1)
      end
  end.

(** A module body runs statement by statement; there is no handler, so the
    first exception ends it. *)
Fixpoint exec_body (b : list stmt) (s : state) : option (exn E) * state :=
  match b with
  | [] => (None, s)
  | st :: b' =>
      match exec_stmt st s with
      | (None, s1) => exec_body b' s1
      | (Some e, s1) => (Some e, s1)
      end
  end.

(** A consumer's [import _visualization], run from the consumer's state [s];
    [ns0] is the fresh module namespace ([__name__], [__file__], ...). *)
Definition import_facade (ns0 : dict obj) (s : state) : (exn E + dict obj) * state :=
  match dict_get facade_name (sysmods s) with
  | Some md => (inr md, s)
  | None =>
      match exec_body body (set_ns ns0 s) with
      | (None, s1) =>
          (inr (ns s1),
           mkState (ns s) (dict_set facade_name (ns s1) (sysmods s1)) (world s1) (attempts s1))
      | (Some e, s1) => (inl e, set_ns (ns s) s1)
      end
  end.

(** Only the module loading of a list of imports, without the bindings. *)
Fixpoint load_all (ms : list string) (s : state) : option (exn E) * state :=
  match ms with
  | [] => (None, s)
  | m :: ms' =>
      match import_module m s with
      | (inl e, s1) => (Some e, s1)
      | (inr _, s1) => load_all ms' s1
      end
  end.

(** The facade bindings computed from a [sys.modules]. *)
Fixpoint apply_imports (sm : dict (dict obj)) (is : list (string * string)) (d : dict obj)
  : dict obj :=
  match is with
  | [] => d
  | (m, n) :: is' =>
      match dict_get m sm with
      | Some md =>
          match dict_get n md with
          | Some v => apply_imports sm is' (dict_set n v d)
          | None => d
          end
      | None => d
      end
  end.

End ImportSystem.

Arguments mkState {obj W} ns sysmods world attempts.
Arguments ns {obj W} s.
Arguments sysmods {obj W} s.
Arguments world {obj W} s.
Arguments attempts {obj W} s.
Arguments set_ns {obj W} d s.
Arguments import_module {obj W E} loader m s.
Arguments import_names {obj W E} m md names s.
Arguments import_star {obj W} md s.
Arguments exec_stmt {obj W E} loader st s.
Arguments exec_body {obj W E} loader b s.
Arguments import_facade {obj W E} loader ns0 s.
Arguments load_all {obj W E} loader ms s.
Arguments apply_imports {obj} sm is d.

(** The ways the import of collaborator [m] for name [n] raises [e] from
    state [s]: not found, failing in its own body, or lacking [n]. *)
Definition collaborator_error {obj W E} (loader : string -> W -> load_result obj W E)
  (m n : string) (s : state obj W) (e : exn E) : Prop :=
  (dict_get m (sysmods s) = None /\ loader m (world s) = NotFound /\ e = ModuleNotFoundError m)
  \/ (dict_get m (sysmods s) = None /\ exists w, loader m (world s) = ExecFailed e w)
  \/ (exists md, (dict_get m (sysmods s) = Some md
                  \/ (dict_get m (sysmods s) = None /\ exists w, loader m (world s) = Executed md w))
                 /\ dict_get n md = None /\ e = ImportError n m).

(** A collaborator whose execution leaves the rest of the world alone. *)
Definition loader_keeps_world {obj W E} (loader : string -> W -> load_result obj W E) : Prop :=
  forall m w,
    match loader m w with
    | NotFound => True
    | ExecFailed _ w' => w' = w
    | Executed _ w' => w' = w
    end.

(** A collaborator whose execution appends its module name to a log kept in
    the world: the world then records which modules were executed. *)
Definition loader_logs {obj E} (loader : string -> list string -> load_result obj (list string) E)
  : Prop :=
  forall m w md w', loader m w = Executed md w' -> w' = w ++ [m].

(** The modules a sequence of imports executes, given the modules already
    in [sys.modules]: each module not cached yet, once, at its first import. *)
Fixpoint fresh_loads (cached : list string) (ms : list string) : list string :=
  match ms with
  | [] => []
  | m :: ms' =>
      if existsb (String.eqb m) cached then fresh_loads cached ms'
      else m :: fresh_loads (m :: cached) ms'
  end.

(** Collaborator [m] yields a module defining [n]: it is already in
    [sys.modules] with [n], or it is not cached and executing it, in any
    world, gives a module with [n]. *)
Definition provides {obj W E} (loader : string -> W -> load_result obj W E)
  (s : state obj W) (m n : string) : Prop :=
  (exists cm, dict_get m (sysmods s) = Some cm /\ dict_get n cm <> None)
  \/ (dict_get m (sysmods s) = None
      /\ forall w, exists cm w', loader m w = Executed cm w' /\ dict_get n cm <> None).

(** ** Concrete collaborators, for tests and witnesses *)

Definition test_modules : dict (dict nat) :=
  [ ("_visutils", [("ParaMonteFigure", 1); ("Target", 2); ("np", 100)])
  ; ("_HistPlot", [("HistPlot", 3); ("_visutils", 101)])
  ; ("_GridPlot", [("GridPlot", 4)])
  ; ("_LinePlot", [("LinePlot", 5)])
  ; ("_ScatterPlot", [("ScatterPlot", 6)])
  ; ("_HeatMapPlot", [("HeatMapPlot", 7)])
  ; ("_DensityMapPlot", [("DensityMapPlot", 8)])
  ; ("_ScatterLinePlot", [("ScatterLinePlot", 9)]) ].

Definition test_loader (m : string) (w : nat) : load_result nat nat nat :=
  match dict_get m test_modules with
  | Some d => Executed d w
  | None => NotFound
  end.

(** The same collaborators, with [_HistPlot] missing. *)
Definition test_loader_no_hist (m : string) (w : nat) : load_result nat nat nat :=
  if String.eqb m "_HistPlot" then NotFound else test_loader m w.

Definition test_state0 : state nat nat := mkState [] [] 0 [].

Definition test_ns0 : dict nat := [("__name__", 0); ("__doc__", 0); ("__file__", 0)].

Definition test_facade_ns : dict nat :=
  test_ns0 ++ [("ParaMonteFigure", 1); ("Target", 2); ("HistPlot", 3); ("GridPlot", 4);
               ("LinePlot", 5); ("ScatterPlot", 6); ("HeatMapPlot", 7);
               ("DensityMapPlot", 8); ("ScatterLinePlot", 9)].

Definition test_state_cached : state nat nat :=
  mkState [] [("_visutils", [("ParaMonteFigure", 1); ("Target", 2); ("np", 100)])] 5 ["_visutils"].

(** The test collaborators, logging their executions. *)
Definition test_log_loader (m : string) (w : list string) : load_result nat (list string) nat :=
  match dict_get m test_modules with
  | Some d => Executed d (w ++ [m])
  | None => NotFound
  end.

Definition test_log_state0 : state nat (list string) := mkState [] [] [] [].

Example test_import_ok :
  fst (import_facade test_loader test_ns0 test_state0) = inr test_facade_ns.
Proof. reflexivity. Qed.

Example test_import_no_hist :
  import_facade test_loader_no_hist test_ns0 test_state0
  = (inl (ModuleNotFoundError "_HistPlot"),
     mkState [] [("_visutils", [("ParaMonteFigure", 1); ("Target", 2); ("np", 100)])] 0
             ["_visutils"; "_visutils"; "_HistPlot"]).
Proof. reflexivity. Qed.

(** ** Dict lemmas *)

Lemma dict_get_set {A} (k k' : string) (v : A) (d : dict A) :
  dict_get k (dict_set k' v d) = if String.eqb k k' then Some v else dict_get k d.
Proof.
  induction d as [|[k0 v0] d IH]; simpl.
  - destruct (String.eqb k k'); reflexivity.
  - destruct (String.eqb_spec k' k0) as [->|Hne]; simpl.
    + destruct (String.eqb k k0); reflexivity.
    + rewrite IH. destruct (String.eqb_spec k k0) as [->|]; [|reflexivity].
      destruct (String.eqb_spec k0 k') as [->|]; [congruence|reflexivity].
Qed.

Lemma keys_set_new {A} (k : string) (v : A) (d : dict A) :
  ~ In k (keys d) -> keys (dict_set k v d) = keys d ++ [k].
Proof.
  induction d as [|[k0 v0] d IH]; simpl; intros Hn; [reflexivity|].
  destruct (String.eqb_spec k k0) as [->|]; [tauto|].
  simpl. f_equal. apply IH. tauto.
Qed.

(** Unfolding one import, and the recursion of a body, step by step. *)
Ltac im_cases loader m s :=
  unfold import_module; simpl;
  destruct (dict_get m (sysmods s)) eqn:?;
  [|destruct (loader m (world s)) eqn:?].

Ltac unfold_stmt := unfold exec_stmt, single.

Ltac unroll :=
  cbn [map firstn nth_error exec_body load_all apply_imports In fst snd].

Section Facts.

Variables (obj W E : Type).
Variable loader : string -> W -> load_result obj W E.

Abbreviation state := (state obj W).
Abbreviation import_module := (import_module loader).
Abbreviation exec_stmt := (exec_stmt loader).
Abbreviation exec_body := (exec_body loader).
Abbreviation load_all := (load_all loader).

Lemma state_eta (s : state) : mkState (ns s) (sysmods s) (world s) (attempts s) = s.
Proof. destruct s; reflexivity. Qed.

(** *** One module import *)

Lemma im_ns m s : ns (snd (import_module m s)) = ns s.
Proof. im_cases loader m s; reflexivity. Qed.

Lemma im_attempts m s : attempts (snd (import_module m s)) = attempts s ++ [m].
Proof. im_cases loader m s; reflexivity. Qed.

Lemma im_sysmods_other m k s :
  k <> m -> dict_get k (sysmods (snd (import_module m s))) = dict_get k (sysmods s).
Proof.
  intros Hk. im_cases loader m s; try reflexivity.
  simpl. rewrite dict_get_set. apply String.eqb_neq in Hk. now rewrite Hk.
Qed.

Lemma im_sysmods_keep m k x s :
  dict_get k (sysmods s) = Some x -> dict_get k (sysmods (snd (import_module m s))) = Some x.
Proof.
  intros Hk. destruct (String.eqb_spec k m) as [->|Hne].
  - im_cases loader m s; simpl; congruence.
  - now rewrite im_sysmods_other.
Qed.

Lemma im_ok m s md s1 :
  import_module m s = (inr md, s1) -> dict_get m (sysmods s1) = Some md.
Proof.
  im_cases loader m s; intros H; inversion H; subst; simpl; auto.
  rewrite dict_get_set, String.eqb_refl. reflexivity.
Qed.

Lemma im_ok_cases m s md s1 :
  import_module m s = (inr md, s1) ->
  dict_get m (sysmods s) = Some md
  \/ (dict_get m (sysmods s) = None /\ exists w, loader m (world s) = Executed md w).
Proof. im_cases loader m s; intros H; inversion H; subst; eauto. Qed.

Lemma im_err m s e s1 :
  import_module m s = (inl e, s1) ->
  dict_get m (sysmods s) = None /\
  ((loader m (world s) = NotFound /\ e = ModuleNotFoundError m)
   \/ exists w, loader m (world s) = ExecFailed e w).
Proof. im_cases loader m s; intros H; inversion H; subst; eauto. Qed.

Lemma im_world_kept m s :
  loader_keeps_world loader -> world (snd (import_module m s)) = world s.
Proof.
  intros Hl. specialize (Hl m (world s)).
  im_cases loader m s; simpl; auto.
Qed.

(** *** One [from m import n] statement *)

Lemma exec_single_frame m n s :
  exists d, snd (exec_stmt (single (m, n)) s) = set_ns d (snd (import_module m s)).
Proof.
  unfold_stmt; simpl.
  destruct (import_module m s) as [[e|md] s1]; simpl.
  - exists (ns s1). unfold set_ns. now rewrite state_eta.
  - destruct (dict_get n md); simpl; eauto.
    exists (ns s1). unfold set_ns. now rewrite state_eta.
Qed.

Lemma exec_single_ok m n s s' :
  exec_stmt (single (m, n)) s = (None, s') ->
  exists md v s1, import_module m s = (inr md, s1) /\ dict_get n md = Some v
                  /\ s' = set_ns (dict_set n v (ns s1)) s1.
Proof.
  unfold_stmt; simpl.
  destruct (import_module m s) as [[e|md] s1] eqn:Hi; simpl; [discriminate|].
  destruct (dict_get n md) eqn:Hn; simpl; intros H; inversion H; subst; eauto 7.
Qed.

Lemma exec_single_err m n s e s' :
  exec_stmt (single (m, n)) s = (Some e, s') -> collaborator_error loader m n s e.
Proof.
  unfold_stmt; unfold collaborator_error; simpl.
  destruct (import_module m s) as [[e1|md] s1] eqn:Hi; simpl.
  - intros H; inversion H; subst.
    apply im_err in Hi as [Hn [[Hl ->]|[w Hl]]]; eauto 10.
  - destruct (dict_get n md) eqn:Hn; simpl; intros H; inversion H; subst.
    apply im_ok_cases in Hi. right; right. eauto.
Qed.

Lemma exec_single_attempts m n s :
  attempts (snd (exec_stmt (single (m, n)) s)) = attempts s ++ [m].
Proof.
  destruct (exec_single_frame m n s) as [d ->]. apply im_attempts.
Qed.

(** *** A body of [from m import n] statements *)

Lemma apply_imports_ext (sm1 sm2 : dict (dict obj)) is d :
  (forall m, In m (map fst is) -> dict_get m sm1 = dict_get m sm2) ->
  apply_imports sm1 is d = apply_imports sm2 is d.
Proof.
  revert d; induction is as [|[m n] is IH]; simpl; intros d H; [reflexivity|].
  rewrite <- (H m (or_introl eq_refl)).
  destruct (dict_get m sm1) as [md|]; [|reflexivity].
  destruct (dict_get n md); [|reflexivity].
  apply IH. intros m' Hm'. apply H. now right.
Qed.

Lemma single_ok_ns m n s s' :
  exec_stmt (single (m, n)) s = (None, s') ->
  exists md v, import_module m s = (inr md, set_ns (ns s) s')
               /\ dict_get n md = Some v /\ ns s' = dict_set n v (ns s).
Proof.
  intros H. apply exec_single_ok in H as (md & v & s1 & Hi & Hn & ->).
  pose proof (im_ns m s) as Hns. rewrite Hi in Hns. simpl in Hns.
  exists md, v. rewrite Hi. unfold set_ns; simpl. rewrite <- Hns, state_eta. auto.
Qed.

Lemma body_ok_attempts is s s' :
  exec_body (map single is) s = (None, s') -> attempts s' = attempts s ++ map fst is.
Proof.
  revert s; induction is as [|[m n] is IH]; unroll; intros s H.
  - inversion H; subst. now rewrite app_nil_r.
  - pose proof (exec_single_attempts m n s) as Ha.
    destruct (exec_stmt (single (m, n)) s) as [[e|] s1]; [discriminate|].
    simpl in Ha. rewrite (IH _ H), Ha, <- app_assoc. reflexivity.
Qed.

Lemma body_err is s e s' :
  exec_body (map single is) s = (Some e, s') ->
  exists k m n sk, nth_error is k = Some (m, n)
    /\ exec_body (firstn k (map single is)) s = (None, sk)
    /\ exec_stmt (single (m, n)) sk = (Some e, s')
    /\ attempts s' = attempts s ++ map fst (firstn (S k) is).
Proof.
  revert s; induction is as [|[m n] is IH]; unroll; intros s H; [discriminate|].
  pose proof (exec_single_attempts m n s) as Ha.
  destruct (exec_stmt (single (m, n)) s) as [[e1|] s1] eqn:Hs.
  - inversion H; subst. exists 0, m, n, s. unroll. auto.
  - destruct (IH _ H) as (k & m' & n' & sk & Hk & Hpre & Hst & Ha').
    exists (S k), m', n', sk. unroll. rewrite Hs. repeat split; auto.
    simpl in Ha. rewrite Ha', Ha, <- app_assoc. reflexivity.
Qed.

Lemma body_sysmods_other is s r s' k :
  exec_body (map single is) s = (r, s') -> ~ In k (map fst is) ->
  dict_get k (sysmods s') = dict_get k (sysmods s).
Proof.
  revert s; induction is as [|[m n] is IH]; unroll; intros s H Hk.
  - inversion H; subst; reflexivity.
  - destruct (exec_single_frame m n s) as [d Hd].
    assert (Hs1 : dict_get k (sysmods (snd (exec_stmt (single (m, n)) s)))
                  = dict_get k (sysmods s)).
    { rewrite Hd. apply im_sysmods_other. intros ->. apply Hk. now left. }
    destruct (exec_stmt (single (m, n)) s) as [[e1|] s1]; simpl in Hs1.
    + inversion H; subst. exact Hs1.
    + rewrite (IH _ H); [exact Hs1|]. tauto.
Qed.

Lemma body_sysmods_keep is s r s' k x :
  exec_body (map single is) s = (r, s') -> dict_get k (sysmods s) = Some x ->
  dict_get k (sysmods s') = Some x.
Proof.
  revert s; induction is as [|[m n] is IH]; unroll; intros s H Hk.
  - inversion H; subst; assumption.
  - destruct (exec_single_frame m n s) as [d Hd].
    assert (Hs1 : dict_get k (sysmods (snd (exec_stmt (single (m, n)) s))) = Some x).
    { rewrite Hd. now apply im_sysmods_keep. }
    destruct (exec_stmt (single (m, n)) s) as [[e1|] s1]; simpl in Hs1.
    + inversion H; subst. exact Hs1.
    + exact (IH _ H Hs1).
Qed.

Lemma body_ns_other is s s' k :
  exec_body (map single is) s = (None, s') -> ~ In k (map snd is) ->
  dict_get k (ns s') = dict_get k (ns s).
Proof.
  revert s; induction is as [|[m n] is IH]; unroll; intros s H Hk.
  - inversion H; subst; reflexivity.
  - destruct (exec_stmt (single (m, n)) s) as [[e1|] s1] eqn:Hs; [discriminate|].
    apply single_ok_ns in Hs as (md & v & _ & _ & Hns).
    rewrite (IH _ H) by tauto. rewrite Hns, dict_get_set.
    destruct (String.eqb_spec k n) as [->|]; [tauto|reflexivity].
Qed.

Lemma body_keys is s s' :
  exec_body (map single is) s = (None, s') -> NoDup (map snd is) ->
  (forall n, In n (map snd is) -> ~ In n (keys (ns s))) ->
  keys (ns s') = keys (ns s) ++ map snd is.
Proof.
  revert s; induction is as [|[m n] is IH]; unroll; intros s H Hnd Hfresh.
  - inversion H; subst. now rewrite app_nil_r.
  - inversion Hnd as [|? ? Hn Hnd']; subst.
    destruct (exec_stmt (single (m, n)) s) as [[e1|] s1] eqn:Hs; [discriminate|].
    apply single_ok_ns in Hs as (md & v & _ & _ & Hns).
    assert (Hk : keys (ns s1) = keys (ns s) ++ [n]).
    { rewrite Hns. apply keys_set_new. apply Hfresh. now left. }
    rewrite (IH _ H Hnd'), Hk, <- app_assoc; [reflexivity|].
    intros n' Hn' Hin. rewrite Hk in Hin. apply in_app_or in Hin as [Hin|[<-|[]]].
    + exact (Hfresh n' (or_intror Hn') Hin).
    + exact (Hn Hn').
Qed.

Lemma body_ident is s s' :
  exec_body (map single is) s = (None, s') -> NoDup (map snd is) ->
  forall m n, In (m, n) is ->
    exists md v, dict_get m (sysmods s') = Some md /\ dict_get n md = Some v
                 /\ dict_get n (ns s') = Some v.
Proof.
  revert s; induction is as [|[m0 n0] is IH]; unroll; intros s H Hnd m n Hin; [tauto|].
  inversion Hnd as [|? ? Hn0 Hnd']; subst.
  destruct (exec_stmt (single (m0, n0)) s) as [[e1|] s1] eqn:Hs; [discriminate|].
  destruct Hin as [Heq|Hin]; [|exact (IH _ H Hnd' m n Hin)].
  inversion Heq; subst.
  apply single_ok_ns in Hs as (md & v & Hi & Hv & Hns).
  exists md, v. split; [|split; [exact Hv|]].
  - apply (body_sysmods_keep _ _ _ _ _ _ H). apply im_ok in Hi. exact Hi.
  - rewrite (body_ns_other _ _ _ _ H Hn0), Hns, dict_get_set, String.eqb_refl.
    reflexivity.
Qed.

Lemma body_apply is s s' :
  exec_body (map single is) s = (None, s') -> ns s' = apply_imports (sysmods s') is (ns s).
Proof.
  revert s; induction is as [|[m n] is IH]; unroll; intros s H.
  - inversion H; subst; reflexivity.
  - destruct (exec_stmt (single (m, n)) s) as [[e1|] s1] eqn:Hs; [discriminate|].
    apply single_ok_ns in Hs as (md & v & Hi & Hv & Hns).
    apply im_ok in Hi. simpl in Hi.
    rewrite (body_sysmods_keep _ _ _ _ _ _ H Hi), Hv, <- Hns. exact (IH _ H).
Qed.

Lemma im_set_ns m d s :
  import_module m (set_ns d s) = (fst (import_module m s), set_ns d (snd (import_module m s))).
Proof. im_cases loader m s; reflexivity. Qed.

Lemma load_all_set_ns ms s d r s'' :
  load_all ms s = (r, s'') -> load_all ms (set_ns d s) = (r, set_ns d s'').
Proof.
  revert s; induction ms as [|m ms IH]; unroll; intros s H.
  - inversion H; subst; reflexivity.
  - rewrite im_set_ns. destruct (import_module m s) as [[e|md] s1]; simpl.
    + inversion H; subst; reflexivity.
    + exact (IH _ H).
Qed.

Lemma body_load_all is s s' :
  exec_body (map single is) s = (None, s') ->
  load_all (map fst is) s = (None, set_ns (ns s) s').
Proof.
  revert s; induction is as [|[m n] is IH]; unroll; intros s H.
  - inversion H; subst. unfold set_ns. now rewrite state_eta.
  - destruct (exec_stmt (single (m, n)) s) as [[e1|] s1] eqn:Hs; [discriminate|].
    apply single_ok_ns in Hs as (md & v & Hi & _ & _).
    rewrite Hi. cbn iota.
    rewrite (load_all_set_ns _ _ (ns s) _ _ (IH _ H)). reflexivity.
Qed.

Lemma load_all_world ms s r s'' :
  loader_keeps_world loader -> load_all ms s = (r, s'') -> world s'' = world s.
Proof.
  intros Hl; revert s; induction ms as [|m ms IH]; unroll; intros s H.
  - inversion H; subst; reflexivity.
  - pose proof (im_world_kept m s Hl) as Hw.
    destruct (import_module m s) as [[e|md] s1]; simpl in Hw.
    + inversion H; subst. exact Hw.
    + rewrite (IH _ H). exact Hw.
Qed.

Lemma body_missing is s m :
  In m (map fst is) -> dict_get m (sysmods s) = None -> (forall w, loader m w = NotFound) ->
  exists e s', exec_body (map single is) s = (Some e, s').
Proof.
  revert s; induction is as [|[m0 n0] is IH]; unroll; intros s Hin Hm Hl; [tauto|].
  destruct (exec_stmt (single (m0, n0)) s) as [[e1|] s1] eqn:Hs; [eauto|].
  apply single_ok_ns in Hs as (md & v & Hi & _ & _).
  destruct (String.eqb_spec m m0) as [->|Hne].
  - apply im_ok_cases in Hi as [Hc|[_ [w Hw]]]; [congruence|]. congruence.
  - apply IH; [destruct Hin as [->|Hin]; [congruence|exact Hin]| |exact Hl].
    pose proof (im_sysmods_other m0 m s Hne) as Ho. rewrite Hi in Ho. simpl in Ho.
    congruence.
Qed.

End Facts.

(** ** Facts about the facade body *)

Lemma body_map : body = map single imports.
Proof. reflexivity. Qed.

Lemma imports_names_nodup : NoDup (map snd imports).
Proof. cbn. repeat constructor; cbn; intuition discriminate. Qed.

Lemma imports_names_public n : In n (map snd imports) -> is_public n = true.
Proof. cbn. intros H. repeat destruct H as [<-|H]; try reflexivity. destruct H. Qed.

Lemma facade_not_imported : ~ In facade_name (map fst imports).
Proof. cbn. intuition discriminate. Qed.

Lemma in_collaborators m : In m collaborators <-> In m (map fst imports).
Proof. apply nodup_In. Qed.

Lemma filter_all_false {A} (f : A -> bool) l :
  (forall x, In x l -> f x = false) -> filter f l = [].
Proof.
  induction l as [|x l IH]; simpl; intros H; [reflexivity|].
  rewrite (H x (or_introl eq_refl)). apply IH. auto.
Qed.

Lemma dict_get_set_other {A} (k k' : string) (v : A) d :
  k <> k' -> dict_get k (dict_set k' v d) = dict_get k d.
Proof. intros H. rewrite dict_get_set. apply String.eqb_neq in H. now rewrite H. Qed.

(** The facade runs its body from the fresh namespace [ns0]. *)
Lemma import_facade_ok {obj W E} (loader : string -> W -> load_result obj W E) ns0 s md s' :
  dict_get facade_name (sysmods s) = None ->
  import_facade loader ns0 s = (inr md, s') ->
  exists s1, exec_body loader body (set_ns ns0 s) = (None, s1) /\ md = ns s1
    /\ s' = mkState (ns s) (dict_set facade_name (ns s1) (sysmods s1)) (world s1) (attempts s1).
Proof.
  intros Hnc. unfold import_facade. rewrite Hnc.
  destruct (exec_body loader body (set_ns ns0 s)) as [[e|] s1]; intros H; inversion H; subst.
  eauto.
Qed.

Lemma import_facade_err {obj W E} (loader : string -> W -> load_result obj W E) ns0 s e s' :
  import_facade loader ns0 s = (inl e, s') ->
  dict_get facade_name (sysmods s) = None
  /\ exists s1, exec_body loader body (set_ns ns0 s) = (Some e, s1) /\ s' = set_ns (ns s) s1.
Proof.
  unfold import_facade. destruct (dict_get facade_name (sysmods s)); [discriminate|].
  destruct (exec_body loader body (set_ns ns0 s)) as [[e1|] s1]; intros H; inversion H; subst.
  eauto.
Qed.

(** The facade's keys after a successful load from a fresh namespace. *)
Lemma facade_keys {obj W E} (loader : string -> W -> load_result obj W E)
  (ns0 : dict obj) (s : state obj W) md :
  dict_get facade_name (sysmods s) = None ->
  (forall k, In k (keys ns0) -> is_public k = false) ->
  fst (import_facade loader ns0 s) = inr md ->
  keys md = keys ns0 ++ map snd imports.
Proof.
  intros Hnc Hpriv Himp.
  destruct (import_facade loader ns0 s) as [r s'] eqn:Hf. cbn in Himp. subst r.
  destruct (import_facade_ok loader ns0 s md s' Hnc Hf) as (s1 & Hb & -> & _).
  rewrite body_map in Hb.
  apply (body_keys _ _ _ loader _ _ _ Hb imports_names_nodup).
  intros n Hn Hin. pose proof (Hpriv n Hin) as H1.
  rewrite (imports_names_public n Hn) in H1. discriminate.
Qed.

(** ** The claims *)

(** C1 (as stated, refuted): the claim asks the facade to bind exactly the
    nine names and, in particular, their number to be eight.  A successful
    load binds nine public names, so the count is not eight. *)
Lemma C1_count_not_eight :
  fst (import_facade test_loader test_ns0 test_state0) = inr test_facade_ns
  /\ public_names test_facade_ns = map snd imports
  /\ length (public_names test_facade_ns) <> 8.
Proof. split; [reflexivity|]. split; [reflexivity|]. cbn. discriminate. Qed.

(** C1 (amended): after a successful load from a fresh namespace holding
    only underscore names ([__name__], [__file__], ...), the public names of
    the facade are exactly ParaMonteFigure, Target and the seven plot
    constructors, in this order: nine names. *)
Theorem C1_public_names {obj W E} (loader : string -> W -> load_result obj W E)
  (ns0 : dict obj) (s : state obj W) md :
  dict_get facade_name (sysmods s) = None ->
  (forall k, In k (keys ns0) -> is_public k = false) ->
  fst (import_facade loader ns0 s) = inr md ->
  public_names md = map snd imports /\ length (public_names md) = 9.
Proof.
  intros Hnc Hpriv Himp.
  pose proof (facade_keys loader ns0 s md Hnc Hpriv Himp) as Hk.
  unfold public_names. rewrite Hk, filter_app, (filter_all_false _ _ Hpriv), app_nil_l.
  rewrite (forallb_filter_id is_public (map snd imports) eq_refl). split; reflexivity.
Qed.

Lemma C1_public_names_witness :
  public_names test_facade_ns = map snd imports /\ length (public_names test_facade_ns) = 9.
Proof.
  apply (C1_public_names test_loader test_ns0 test_state0 test_facade_ns eq_refl).
  - cbn. intros k H. repeat destruct H as [<-|H]; try reflexivity. destruct H.
  - reflexivity.
Defined.

(** C2: after a successful load, every name the facade binds is the very
    object found under that name in its collaborator's module, as recorded in
    [sys.modules]; and every module already in [sys.modules] is left as it
    was.  Objects are abstract ([obj]), so the facade cannot build copies or
    wrappers of them. *)
Theorem C2_reference_identity {obj W E} (loader : string -> W -> load_result obj W E)
  (ns0 : dict obj) (s : state obj W) md :
  dict_get facade_name (sysmods s) = None ->
  fst (import_facade loader ns0 s) = inr md ->
  (forall m n, In (m, n) imports ->
     exists cm v, dict_get m (sysmods (snd (import_facade loader ns0 s))) = Some cm
                  /\ dict_get n cm = Some v /\ dict_get n md = Some v)
  /\ (forall m cm, dict_get m (sysmods s) = Some cm ->
        dict_get m (sysmods (snd (import_facade loader ns0 s))) = Some cm).
Proof.
  intros Hnc Himp.
  destruct (import_facade loader ns0 s) as [r s'] eqn:Hf. cbn [fst snd] in Himp |- *. subst r.
  destruct (import_facade_ok loader ns0 s md s' Hnc Hf) as (s1 & Hb & -> & ->).
  cbn [sysmods]. rewrite body_map in Hb. split.
  - intros m n Hin.
    destruct (body_ident _ _ _ _ _ _ _ Hb imports_names_nodup m n Hin) as (cm & v & H1 & H2 & H3).
    exists cm, v. rewrite dict_get_set_other; [auto|].
    intros ->. apply facade_not_imported. exact (in_map fst _ _ Hin).
  - intros m cm Hm. rewrite dict_get_set_other; [|congruence].
    exact (body_sysmods_keep _ _ _ _ _ _ _ _ _ _ Hb Hm).
Qed.

Lemma C2_reference_identity_witness :
  (forall m n, In (m, n) imports ->
     exists cm v, dict_get m (sysmods (snd (import_facade test_loader test_ns0 test_state0))) = Some cm
                  /\ dict_get n cm = Some v /\ dict_get n test_facade_ns = Some v)
  /\ (forall m cm, dict_get m (sysmods test_state0) = Some cm ->
        dict_get m (sysmods (snd (import_facade test_loader test_ns0 test_state0))) = Some cm).
Proof. apply C2_reference_identity; reflexivity. Defined.

(** C3: if one collaborator is neither in [sys.modules] nor findable, the
    consumer's [import _visualization] raises, the facade is not registered
    in [sys.modules] and the consumer's namespace is unchanged: no name of
    the facade reaches the consumer. *)
Theorem C3_all_or_nothing {obj W E} (loader : string -> W -> load_result obj W E)
  (ns0 : dict obj) (s : state obj W) m :
  dict_get facade_name (sysmods s) = None ->
  In m collaborators ->
  dict_get m (sysmods s) = None ->
  (forall w, loader m w = NotFound) ->
  exists e s', import_facade loader ns0 s = (inl e, s')
               /\ dict_get facade_name (sysmods s') = None /\ ns s' = ns s.
Proof.
  intros Hnc Hm Hc Hl. apply in_collaborators in Hm.
  destruct (body_missing _ _ _ loader imports (set_ns ns0 s) m Hm Hc Hl) as (e & s1 & Hb).
  exists e, (set_ns (ns s) s1). unfold import_facade. rewrite Hnc, body_map, Hb.
  split; [reflexivity|]. split; [|reflexivity].
  cbn [set_ns sysmods].
  rewrite (body_sysmods_other _ _ _ loader _ _ _ _ facade_name Hb facade_not_imported).
  exact Hnc.
Qed.

Lemma C3_all_or_nothing_witness :
  exists e s', import_facade test_loader_no_hist test_ns0 test_state0 = (inl e, s')
               /\ dict_get facade_name (sysmods s') = None /\ ns s' = ns test_state0.
Proof.
  apply (C3_all_or_nothing test_loader_no_hist test_ns0 test_state0 "_HistPlot").
  - reflexivity.
  - cbn. repeat (first [left; reflexivity | right]).
  - reflexivity.
  - intros w. reflexivity.
Defined.

(** C4: when the consumer's [import _visualization] raises [e], some
    import statement [k] of the facade, importing name [n] from collaborator
    [m], ran after statements [0..k-1] succeeded and raised exactly [e]:
    [ModuleNotFoundError m] when [m] cannot be found, the collaborator's own
    exception unchanged when its body fails, or [ImportError n m] when it
    lacks [n].  The facade adds no handler and no error of its own. *)
Theorem C4_error_propagated {obj W E} (loader : string -> W -> load_result obj W E)
  (ns0 : dict obj) (s : state obj W) e :
  fst (import_facade loader ns0 s) = inl e ->
  exists k m n sk, nth_error imports k = Some (m, n) /\ In m collaborators
    /\ exec_body loader (firstn k body) (set_ns ns0 s) = (None, sk)
    /\ collaborator_error loader m n sk e.
Proof.
  intros Himp.
  destruct (import_facade loader ns0 s) as [r s'] eqn:Hf. cbn [fst] in Himp. subst r.
  destruct (import_facade_err loader ns0 s e s' Hf) as (_ & s1 & Hb & _).
  rewrite body_map in Hb |- *.
  destruct (body_err _ _ _ _ _ _ _ _ Hb) as (k & m & n & sk & Hk & Hpre & Hst & _).
  exists k, m, n, sk. split; [exact Hk|]. split.
  - apply in_collaborators. exact (in_map fst _ _ (nth_error_In _ _ Hk)).
  - split; [exact Hpre|]. exact (exec_single_err _ _ _ _ _ _ _ _ _ Hst).
Qed.

Lemma C4_error_propagated_witness :
  exists k m n sk, nth_error imports k = Some (m, n) /\ In m collaborators
    /\ exec_body test_loader_no_hist (firstn k body) (set_ns test_ns0 test_state0) = (None, sk)
    /\ collaborator_error test_loader_no_hist m n sk (ModuleNotFoundError "_HistPlot").
Proof. apply C4_error_propagated. reflexivity. Defined.

(** C5: a successful load changes nothing but the facade's own namespace
    and what loading its collaborators changes: the consumer's namespace is
    untouched, and [sys.modules], the world and the import log are those of
    loading the collaborators alone, plus the facade's entry in
    [sys.modules].  With collaborators that leave the world alone, the
    world is unchanged. *)
Theorem C5_frame {obj W E} (loader : string -> W -> load_result obj W E)
  (ns0 : dict obj) (s : state obj W) md :
  dict_get facade_name (sysmods s) = None ->
  fst (import_facade loader ns0 s) = inr md ->
  exists s'', load_all loader (map fst imports) s = (None, s'')
    /\ ns (snd (import_facade loader ns0 s)) = ns s
    /\ sysmods (snd (import_facade loader ns0 s)) = dict_set facade_name md (sysmods s'')
    /\ world (snd (import_facade loader ns0 s)) = world s''
    /\ attempts (snd (import_facade loader ns0 s)) = attempts s''
    /\ (loader_keeps_world loader -> world (snd (import_facade loader ns0 s)) = world s).
Proof.
  intros Hnc Himp.
  destruct (import_facade loader ns0 s) as [r s'] eqn:Hf. cbn [fst snd] in Himp |- *. subst r.
  destruct (import_facade_ok loader ns0 s md s' Hnc Hf) as (s1 & Hb & -> & ->).
  rewrite body_map in Hb.
  pose proof (body_load_all _ _ _ loader _ _ _ Hb) as HL.
  apply (load_all_set_ns _ _ _ loader _ _ (ns s)) in HL.
  assert (Hs : set_ns (ns s) (set_ns ns0 s) = s) by (destruct s; reflexivity).
  rewrite Hs in HL.
  exists (set_ns (ns s) s1). cbn. repeat split; [exact HL|].
  intros Hk. rewrite <- (load_all_world _ _ _ loader _ _ _ _ Hk HL). reflexivity.
Qed.

Lemma test_loader_keeps_world : loader_keeps_world test_loader.
Proof. intros m w. unfold test_loader. destruct (dict_get m test_modules); exact I || reflexivity. Qed.

Lemma C5_frame_witness :
  exists s'', load_all test_loader (map fst imports) test_state0 = (None, s'')
    /\ ns (snd (import_facade test_loader test_ns0 test_state0)) = ns test_state0
    /\ sysmods (snd (import_facade test_loader test_ns0 test_state0))
       = dict_set facade_name test_facade_ns (sysmods s'')
    /\ world (snd (import_facade test_loader test_ns0 test_state0)) = world s''
    /\ attempts (snd (import_facade test_loader test_ns0 test_state0)) = attempts s''
    /\ (loader_keeps_world test_loader ->
        world (snd (import_facade test_loader test_ns0 test_state0)) = world test_state0).
Proof. apply C5_frame; reflexivity. Defined.

(** C6: no statement of the facade is a wildcard import; each of the seven
    plot constructors [P] is bound by exactly one statement,
    [from _P import P], which is also the only statement that imports from
    [_P]; the seven modules are distinct and none is [_visutils]. *)
Theorem C6_plot_imports :
  forallb (fun st => negb (is_star st)) body = true
  /\ (forall p, In p plot_constructors ->
        filter (fun st => existsb (String.eqb p) (stmt_names st)) body
          = [ImportFrom (String.append "_" p) [p]]
        /\ filter (fun st => String.eqb (stmt_module st) (String.append "_" p)) body
          = [ImportFrom (String.append "_" p) [p]])
  /\ NoDup (map (String.append "_") plot_constructors)
  /\ ~ In "_visutils" (map (String.append "_") plot_constructors).
Proof.
  split; [reflexivity|]. split.
  - intros p Hp. cbn in Hp.
    repeat destruct Hp as [<-|Hp]; try (split; reflexivity). destruct Hp.
  - split.
    + cbn. repeat constructor; cbn; intuition discriminate.
    + cbn. intuition discriminate.
Qed.

(** C7: the two statements importing from [_visutils] bind ParaMonteFigure
    and Target, each name is bound by that statement alone, and no statement
    binding a plot constructor imports from [_visutils]. *)
Theorem C7_visutils_imports :
  filter (fun st => String.eqb (stmt_module st) "_visutils") body
    = [ImportFrom "_visutils" ["ParaMonteFigure"]; ImportFrom "_visutils" ["Target"]]
  /\ filter (fun st => existsb (String.eqb "ParaMonteFigure") (stmt_names st)) body
    = [ImportFrom "_visutils" ["ParaMonteFigure"]]
  /\ filter (fun st => existsb (String.eqb "Target") (stmt_names st)) body
    = [ImportFrom "_visutils" ["Target"]]
  /\ (forall p, In p plot_constructors -> forall st, In st body -> In p (stmt_names st) ->
        stmt_module st <> "_visutils").
Proof.
  split; [reflexivity|]. split; [reflexivity|]. split; [reflexivity|].
  intros p Hp st Hst Hin Heq. cbn in Hst.
  repeat destruct Hst as [<-|Hst]; cbn in Hin, Heq; try discriminate; try destruct Hst;
    destruct Hin as [<-|[]]; cbn in Hp; intuition discriminate.
Qed.

(** C8: the statements bind the nine names in the textual order; a run that
    succeeds attempted the imports of all nine statements in order, and a run
    that fails at statement [k] attempted the imports of statements [0..k]
    and of no later one. *)
Theorem C8_import_order {obj W E} (loader : string -> W -> load_result obj W E)
  (s : state obj W) r s' :
  exec_body loader body s = (r, s') ->
  map snd imports = ["ParaMonteFigure"; "Target"; "HistPlot"; "GridPlot"; "LinePlot";
                     "ScatterPlot"; "HeatMapPlot"; "DensityMapPlot"; "ScatterLinePlot"]
  /\ match r with
     | None => attempts s' = attempts s ++ map fst imports
     | Some e =>
         exists k m n sk, nth_error imports k = Some (m, n)
           /\ exec_body loader (firstn k body) s = (None, sk)
           /\ exec_stmt loader (single (m, n)) sk = (Some e, s')
           /\ attempts s' = attempts s ++ map fst (firstn (S k) imports)
     end.
Proof.
  intros H. split; [reflexivity|]. rewrite body_map in H |- *.
  destruct r as [e|].
  - exact (body_err _ _ _ _ _ _ _ _ H).
  - exact (body_ok_attempts _ _ _ _ _ _ _ H).
Qed.

Lemma C8_import_order_witness :
  map snd imports = ["ParaMonteFigure"; "Target"; "HistPlot"; "GridPlot"; "LinePlot";
                     "ScatterPlot"; "HeatMapPlot"; "DensityMapPlot"; "ScatterLinePlot"]
  /\ match fst (exec_body test_loader_no_hist body test_state0) with
     | None => attempts (snd (exec_body test_loader_no_hist body test_state0))
               = attempts test_state0 ++ map fst imports
     | Some e =>
         exists k m n sk, nth_error imports k = Some (m, n)
           /\ exec_body test_loader_no_hist (firstn k body) test_state0 = (None, sk)
           /\ exec_stmt test_loader_no_hist (single (m, n)) sk
              = (Some e, snd (exec_body test_loader_no_hist body test_state0))
           /\ attempts (snd (exec_body test_loader_no_hist body test_state0))
              = attempts test_state0 ++ map fst (firstn (S k) imports)
     end.
Proof.
  apply (C8_import_order test_loader_no_hist test_state0
           (fst (exec_body test_loader_no_hist body test_state0))
           (snd (exec_body test_loader_no_hist body test_state0))).
  reflexivity.
Defined.

(** C9: every statement binds exactly one name, the nine names are pairwise
    distinct, and after a successful load from a fresh namespace each of
    them is added once, in statement order, with nothing rebound. *)
Theorem C9_names_distinct {obj W E} (loader : string -> W -> load_result obj W E)
  (ns0 : dict obj) (s : state obj W) md :
  dict_get facade_name (sysmods s) = None ->
  (forall k, In k (keys ns0) -> is_public k = false) ->
  fst (import_facade loader ns0 s) = inr md ->
  Forall (fun st => length (stmt_names st) = 1) body
  /\ NoDup (flat_map stmt_names body)
  /\ keys md = keys ns0 ++ flat_map stmt_names body.
Proof.
  intros Hnc Hpriv Himp.
  split; [repeat constructor|]. split; [exact imports_names_nodup|].
  exact (facade_keys loader ns0 s md Hnc Hpriv Himp).
Qed.

Lemma C9_names_distinct_witness :
  Forall (fun st => length (stmt_names st) = 1) body
  /\ NoDup (flat_map stmt_names body)
  /\ keys test_facade_ns = keys test_ns0 ++ flat_map stmt_names body.
Proof.
  apply (C9_names_distinct test_loader test_ns0 test_state0 test_facade_ns eq_refl).
  - cbn. intros k H. repeat destruct H as [<-|H]; try reflexivity. destruct H.
  - reflexivity.
Defined.

(** C10: two successful loads from the same fresh namespace, whose
    collaborator modules end up the same in [sys.modules], give the facade
    the same namespace: the same names bound to the same objects.  The two
    runs may differ in everything else (world, loader, import log). *)
Theorem C10_deterministic {obj W1 W2 E1 E2}
  (loader1 : string -> W1 -> load_result obj W1 E1)
  (loader2 : string -> W2 -> load_result obj W2 E2)
  (ns0 : dict obj) (s1 : state obj W1) (s2 : state obj W2) md1 md2 :
  dict_get facade_name (sysmods s1) = None ->
  dict_get facade_name (sysmods s2) = None ->
  fst (import_facade loader1 ns0 s1) = inr md1 ->
  fst (import_facade loader2 ns0 s2) = inr md2 ->
  (forall m, In m collaborators ->
     dict_get m (sysmods (snd (import_facade loader1 ns0 s1)))
     = dict_get m (sysmods (snd (import_facade loader2 ns0 s2)))) ->
  md1 = md2.
Proof.
  intros Hnc1 Hnc2 Himp1 Himp2 Hsame.
  destruct (import_facade loader1 ns0 s1) as [r1 t1] eqn:Hf1.
  destruct (import_facade loader2 ns0 s2) as [r2 t2] eqn:Hf2.
  cbn [fst snd] in Himp1, Himp2, Hsame. subst r1 r2.
  destruct (import_facade_ok loader1 ns0 s1 md1 t1 Hnc1 Hf1) as (u1 & Hb1 & -> & ->).
  destruct (import_facade_ok loader2 ns0 s2 md2 t2 Hnc2 Hf2) as (u2 & Hb2 & -> & ->).
  rewrite body_map in Hb1, Hb2. cbn [sysmods] in Hsame.
  rewrite (body_apply _ _ _ _ _ _ _ Hb1), (body_apply _ _ _ _ _ _ _ Hb2).
  cbn [ns set_ns]. apply apply_imports_ext.
  intros m Hm. assert (Hne : m <> facade_name).
  { intros ->. exact (facade_not_imported Hm). }
  apply in_collaborators in Hm. specialize (Hsame m Hm).
  rewrite !dict_get_set_other in Hsame by exact Hne. exact Hsame.
Qed.


Lemma C10_deterministic_witness : test_facade_ns = test_facade_ns.
Proof.
  apply (C10_deterministic test_loader test_loader test_ns0 test_state0 test_state_cached).
  - reflexivity.
  - reflexivity.
  - reflexivity.
  - reflexivity.
  - intros m Hm. apply in_collaborators in Hm. cbn in Hm.
    repeat destruct Hm as [<-|Hm]; reflexivity.
Defined.

(** ** Further properties of loading the facade *)

Lemma body_cached {obj W E} (loader : string -> W -> load_result obj W E) is s s' :
  exec_body loader (map single is) s = (None, s') ->
  forall m n, In (m, n) is -> dict_get m (sysmods s') <> None.
Proof.
  revert s; induction is as [|[m0 n0] is IH]; unroll; intros s H m n Hin; [tauto|].
  destruct (exec_stmt loader (single (m0, n0)) s) as [[e1|] s1] eqn:Hs; [discriminate|].
  destruct Hin as [Heq|Hin]; [|exact (IH _ H m n Hin)].
  inversion Heq; subst.
  apply single_ok_ns in Hs as (md & v & Hi & _ & _). apply im_ok in Hi.
  cbn [sysmods set_ns] in Hi.
  rewrite (body_sysmods_keep _ _ _ _ _ _ _ _ _ _ H Hi). discriminate.
Qed.

Lemma single_err_keep {obj W E} (loader : string -> W -> load_result obj W E) m n s e s' k x :
  exec_stmt loader (single (m, n)) s = (Some e, s') ->
  dict_get k (sysmods s) = Some x -> dict_get k (sysmods s') = Some x.
Proof.
  intros H Hk. destruct (exec_single_frame _ _ _ loader m n s) as [d Hd].
  rewrite H in Hd. cbn [snd] in Hd. rewrite Hd. cbn [set_ns sysmods].
  exact (im_sysmods_keep _ _ _ loader m k x s Hk).
Qed.

Lemma dict_get_keys {A} (k : string) (d : dict A) : dict_get k d <> None <-> In k (keys d).
Proof.
  induction d as [|[k0 v0] d IH]; cbn; [split; [congruence|tauto]|].
  destruct (String.eqb_spec k k0) as [->|Hne]; [split; [auto|discriminate]|].
  rewrite IH. split; [auto|intros [->|H]; [congruence|exact H]].
Qed.

Lemma load_all_logs {obj E} (loader : string -> list string -> load_result obj (list string) E)
  ms s s'' cached :
  loader_logs loader -> load_all loader ms s = (None, s'') ->
  (forall m, dict_get m (sysmods s) <> None <-> In m cached) ->
  world s'' = world s ++ fresh_loads cached ms.
Proof.
  intros Hl; revert s cached; induction ms as [|m ms IH]; cbn; intros s cached H Hc.
  - inversion H; subst. now rewrite app_nil_r.
  - destruct (import_module loader m s) as [[e|md] s1] eqn:Hi; [discriminate|].
    pose proof (im_ok _ _ _ loader _ _ _ _ Hi) as Hok.
    pose proof (im_sysmods_other _ _ _ loader m) as Ho.
    unfold import_module in Hi. cbn [sysmods world ns attempts] in Hi.
    destruct (dict_get m (sysmods s)) as [x|] eqn:Hm.
    + inversion Hi; subst.
      assert (Hin : existsb (String.eqb m) cached = true).
      { apply existsb_exists. exists m. split; [apply Hc; congruence|apply String.eqb_refl]. }
      rewrite Hin. exact (IH _ _ H Hc).
    + destruct (loader m (world s)) as [|e w|md' w] eqn:Hlm; inversion Hi; subst.
      assert (Hnin : existsb (String.eqb m) cached = false).
      { apply Bool.not_true_is_false. intros Hex. apply existsb_exists in Hex as (m' & Hm' & Heq).
        apply String.eqb_eq in Heq; subst m'. apply Hc in Hm'. congruence. }
      rewrite Hnin. rewrite (IH _ (m :: cached) H).
      * cbn [world]. rewrite (Hl _ _ _ _ Hlm), <- app_assoc. reflexivity.
      * intros k. cbn [sysmods]. rewrite dict_get_set. cbn [In].
        destruct (String.eqb_spec k m) as [->|Hne].
        -- split; [auto|discriminate].
        -- rewrite Hc. split; [auto|intros [->|Hk]; [congruence|exact Hk]].
Qed.

Lemma provides_ok {obj W E} (loader : string -> W -> load_result obj W E) s m n :
  provides loader s m n ->
  exists cm v s1, import_module loader m s = (inr cm, s1) /\ dict_get n cm = Some v.
Proof.
  unfold import_module; cbn [sysmods world ns attempts].
  intros [(cm & Hc & Hn)|(Hc & Hl)].
  - rewrite Hc. destruct (dict_get n cm) as [v|] eqn:Hv; [|congruence]. eauto.
  - rewrite Hc. destruct (Hl (world s)) as (cm & w' & Hlw & Hn). rewrite Hlw.
    destruct (dict_get n cm) as [v|] eqn:Hv; [|congruence]. eauto.
Qed.

Lemma provides_after {obj W E} (loader : string -> W -> load_result obj W E) s m0 cm s1 m n :
  import_module loader m0 s = (inr cm, s1) -> provides loader s m n -> provides loader s1 m n.
Proof.
  intros Hi Hp. destruct (String.eqb_spec m m0) as [->|Hne].
  - left. exists cm. split; [exact (im_ok _ _ _ loader _ _ _ _ Hi)|].
    apply im_ok_cases in Hi as [Hc|(Hc & w & Hlw)];
      destruct Hp as [(cm' & Hc' & Hn)|(Hc' & Hl)]; try congruence.
    destruct (Hl (world s)) as (cm'' & w'' & Hlw' & Hn). congruence.
  - pose proof (im_sysmods_other _ _ _ loader m0 m s Hne) as Ho. rewrite Hi in Ho.
    cbn [snd] in Ho. unfold provides. rewrite Ho. exact Hp.
Qed.

Lemma body_provided {obj W E} (loader : string -> W -> load_result obj W E) is s :
  (forall m n, In (m, n) is -> provides loader s m n) ->
  exists s', exec_body loader (map single is) s = (None, s').
Proof.
  revert s; induction is as [|[m0 n0] is IH]; unroll; intros s Hp; [eauto|].
  destruct (provides_ok loader s m0 n0 (Hp _ _ (or_introl eq_refl))) as (cm & v & s1 & Hi & Hv).
  assert (Hs : exec_stmt loader (single (m0, n0)) s = (None, set_ns (dict_set n0 v (ns s1)) s1)).
  { unfold_stmt. cbn [fst snd]. unfold exec_stmt. rewrite Hi. cbn. rewrite Hv. reflexivity. }
  rewrite Hs. apply IH. intros m n Hin.
  exact (provides_after loader s m0 cm s1 m n Hi (Hp m n (or_intror Hin))).
Qed.



(** When loading the facade fails, the facade is not registered and the
    consumer's namespace is unchanged, but nothing is rolled back in
    [sys.modules]: the failure happened at some statement [k], the imports
    of statements [0..k] were attempted, and the collaborators of statements
    [0..k-1] stay in [sys.modules]. *)
Theorem facade_failure_keeps_loaded {obj W E} (loader : string -> W -> load_result obj W E)
  (ns0 : dict obj) (s : state obj W) e :
  fst (import_facade loader ns0 s) = inl e ->
  dict_get facade_name (sysmods (snd (import_facade loader ns0 s))) = None
  /\ ns (snd (import_facade loader ns0 s)) = ns s
  /\ exists k,
       attempts (snd (import_facade loader ns0 s)) = attempts s ++ map fst (firstn (S k) imports)
       /\ forall m n, In (m, n) (firstn k imports) ->
            dict_get m (sysmods (snd (import_facade loader ns0 s))) <> None.
Proof.
  intros Himp.
  destruct (import_facade loader ns0 s) as [r s'] eqn:Hf. cbn [fst snd] in Himp |- *. subst r.
  destruct (import_facade_err loader ns0 s e s' Hf) as (Hnc & s1 & Hb & ->).
  rewrite body_map in Hb.
  destruct (body_err _ _ _ _ _ _ _ _ Hb) as (k & m0 & n0 & sk & Hk & Hpre & Hst & Ha).
  cbn [set_ns sysmods ns attempts]. split; [|split; [reflexivity|]].
  - rewrite (body_sysmods_other _ _ _ loader _ _ _ _ facade_name Hb facade_not_imported).
    exact Hnc.
  - exists k. split; [exact Ha|]. intros m n Hin.
    rewrite firstn_map in Hpre.
    pose proof (body_cached loader _ _ _ Hpre m n Hin) as Hm.
    destruct (dict_get m (sysmods sk)) as [x|] eqn:Hx; [|congruence].
    rewrite (single_err_keep loader m0 n0 sk e s1 m x Hst Hx). discriminate.
Qed.

Lemma facade_failure_keeps_loaded_witness :
  dict_get facade_name (sysmods (snd (import_facade test_loader_no_hist test_ns0 test_state0))) = None
  /\ ns (snd (import_facade test_loader_no_hist test_ns0 test_state0)) = ns test_state0
  /\ exists k,
       attempts (snd (import_facade test_loader_no_hist test_ns0 test_state0))
       = attempts test_state0 ++ map fst (firstn (S k) imports)
       /\ forall m n, In (m, n) (firstn k imports) ->
            dict_get m (sysmods (snd (import_facade test_loader_no_hist test_ns0 test_state0))) <> None.
Proof. apply (facade_failure_keeps_loaded test_loader_no_hist test_ns0 test_state0 (ModuleNotFoundError "_HistPlot")). reflexivity. Defined.

(** A successful load leaves every name of the fresh namespace other than
    the nine imported ones ([__name__], [__file__], ...) as it was. *)
Theorem facade_keeps_fresh_names {obj W E} (loader : string -> W -> load_result obj W E)
  (ns0 : dict obj) (s : state obj W) md :
  dict_get facade_name (sysmods s) = None ->
  fst (import_facade loader ns0 s) = inr md ->
  forall k, ~ In k (map snd imports) -> dict_get k md = dict_get k ns0.
Proof.
  intros Hnc Himp k Hk.
  destruct (import_facade loader ns0 s) as [r s'] eqn:Hf. cbn [fst] in Himp. subst r.
  destruct (import_facade_ok loader ns0 s md s' Hnc Hf) as (s1 & Hb & -> & _).
  rewrite body_map in Hb. exact (body_ns_other _ _ _ loader _ _ _ k Hb Hk).
Qed.

Lemma facade_keeps_fresh_names_witness :
  ~ In "__name__" (map snd imports)
  /\ dict_get "__name__" test_facade_ns = dict_get "__name__" test_ns0.
Proof.
  assert (Hk : ~ In "__name__" (map snd imports)) by (cbn; intuition discriminate).
  split; [exact Hk|].
  apply (facade_keeps_fresh_names test_loader test_ns0 test_state0 test_facade_ns eq_refl eq_refl
           "__name__" Hk).
Defined.

(** A successful load executes each collaborator at most once, in the order
    of its first import, and only when it is not already in [sys.modules]:
    [_visutils], imported by two statements, runs once. *)
Theorem facade_executes_each_once {obj E}
  (loader : string -> list string -> load_result obj (list string) E)
  (ns0 : dict obj) (s : state obj (list string)) md :
  loader_logs loader ->
  dict_get facade_name (sysmods s) = None ->
  fst (import_facade loader ns0 s) = inr md ->
  world (snd (import_facade loader ns0 s))
  = world s ++ fresh_loads (keys (sysmods s)) (map fst imports).
Proof.
  intros Hl Hnc Himp.
  destruct (import_facade loader ns0 s) as [r s'] eqn:Hf. cbn [fst snd] in Himp |- *. subst r.
  destruct (import_facade_ok loader ns0 s md s' Hnc Hf) as (s1 & Hb & -> & ->).
  rewrite body_map in Hb.
  pose proof (body_load_all _ _ _ loader _ _ _ Hb) as HL.
  exact (load_all_logs loader _ _ _ _ Hl HL (fun m => dict_get_keys m (sysmods s))).
Qed.

Lemma test_log_loader_logs : loader_logs test_log_loader.
Proof.
  intros m w md w'. unfold test_log_loader.
  destruct (dict_get m test_modules); intros H; inversion H; reflexivity.
Qed.

Lemma facade_executes_each_once_witness :
  world (snd (import_facade test_log_loader [] test_log_state0))
  = ["_visutils"; "_HistPlot"; "_GridPlot"; "_LinePlot"; "_ScatterPlot"; "_HeatMapPlot";
     "_DensityMapPlot"; "_ScatterLinePlot"].
Proof.
  rewrite (facade_executes_each_once test_log_loader [] test_log_state0 (skipn 3 test_facade_ns)
             test_log_loader_logs eq_refl).
  - reflexivity.
  - reflexivity.
Defined.

(** Conversely, the load succeeds whenever every collaborator provides the
    name imported from it, already cached or by executing. *)
Theorem facade_loads_when_provided {obj W E} (loader : string -> W -> load_result obj W E)
  (ns0 : dict obj) (s : state obj W) :
  dict_get facade_name (sysmods s) = None ->
  (forall m n, In (m, n) imports -> provides loader s m n) ->
  exists md, fst (import_facade loader ns0 s) = inr md.
Proof.
  intros Hnc Hp.
  destruct (body_provided loader imports (set_ns ns0 s) Hp) as (s1 & Hb).
  exists (ns s1). unfold import_facade. rewrite Hnc, body_map, Hb. reflexivity.
Qed.

Lemma facade_loads_when_provided_witness :
  exists md, fst (import_facade test_loader test_ns0 test_state0) = inr md.
Proof.
  apply facade_loads_when_provided; [reflexivity|].
  intros m n Hin. cbn in Hin. right. split; [|intros w].
  - repeat destruct Hin as [Heq|Hin]; try (inversion Heq; subst; reflexivity). destruct Hin.
  - repeat destruct Hin as [Heq|Hin]; try (inversion Heq; subst; eexists _, _; split; [reflexivity|discriminate]).
    destruct Hin.
Defined.
